(** * river.optim: the optimizer life cycle and the weight initializers

    A shallow embedding of [river/optim/base.py] and
    [river/optim/initializers.py].

    Python objects are records, attribute assignment is explicit state
    passing, and an exception is an outcome that short-circuits the rest of
    the method while keeping every mutation done before it was raised.
    Weight and gradient dictionaries live in a store and are passed by
    reference, as Python passes them. *)

From Stdlib Require Import ZArith Lia PrimFloat SpecFloat FloatOps.
From stdpp Require Import gmap strings list.

Open Scope Z_scope.

(** ** Python values, exceptions and outcomes *)

Inductive exn : Type :=
| TypeError
| AttributeError
| NotImplementedError
| ValueError
| OverflowError
| IndexError
| MemoryError
| KeyError (k : string).

Inductive outcome (A : Type) : Type :=
| Return (a : A)
| Raise (e : exn).
Arguments Return {A} a.
Arguments Raise {A} e.

Definition is_Return {A} (o : outcome A) : bool :=
  match o with Return _ => true | Raise _ => false end.

(** The instances of [numbers.Number] the optimizer is given: Python's
    unbounded [int] and its binary64 [float]. *)
Inductive number : Type :=
| PyInt (z : Z)
| PyFloat (f : float).

(** [float(x)]: an [int] is rounded to the nearest binary64 value, ties to
    even, and is refused when it is too large to be represented. *)
Definition float_of_number (x : number) : outcome float :=
  match x with
  | PyFloat f => Return f
  | PyInt z =>
      let f := SF2Prim (binary_normalize prec emax z 0 false) in
      if is_infinity f then Raise OverflowError else Return f
  end.

(** [x < 0] on numbers. *)
Definition negative (x : number) : bool :=
  match x with
  | PyInt z => z <? 0
  | PyFloat f => (f <? 0)%float
  end.

(** ** [river.optim.schedulers] *)

Module schedulers.

(** Modelled from the spec: the module [schedulers] that [base.py] imports
    (the [Scheduler] interface and the class [schedulers.Constant]) is not
    among the sources.  The spec gives the interface as
    [get(iteration) -> rate], a pure read of the iteration number, and calls
    [Constant] a constant-rate schedule, which is iteration-invariant. *)
Inductive Scheduler : Type :=
| Constant (learning_rate : number)
| Computed (rate : Z -> outcome number).

Definition get (s : Scheduler) (t : Z) : outcome number :=
  match s with
  | Constant learning_rate => Return learning_rate
  | Computed rate => rate t
  end.

End schedulers.

(** ** [river/optim/base.py] *)

Module base.

(** What the caller may hand to [Optimizer(lr)]: the annotation asks for a
    scheduler or a float, and Python checks nothing. *)
Inductive pyobj : Type :=
| Num (x : number)
| Sched (s : schedulers.Scheduler)
| Str (s : string)
| None_.

(** A reference to a dictionary in the store. *)
Definition ref : Type := positive.

(** The attributes of an optimizer object: the two the base class sets and,
    in [ext], those a concrete subclass adds. *)
Record Optimizer (X : Type) : Type := mkOptimizer {
  lr : pyobj;
  n_iterations : Z;
  ext : X
}.
Arguments mkOptimizer {X} lr n_iterations ext.
Arguments lr {X} _.
Arguments n_iterations {X} _.
Arguments ext {X} _.

(** The optimizer object [self] and the store of dictionaries. *)
Record machine (X : Type) : Type := mkMachine {
  self : Optimizer X;
  heap : gmap ref (gmap string float)
}.
Arguments mkMachine {X} self heap.
Arguments self {X} _.
Arguments heap {X} _.

(** A method body: it reads and writes the machine and returns or raises. *)
Definition M (X A : Type) : Type := machine X → outcome A * machine X.

#[global] Instance M_ret {X} : MRet (M X) := λ A a m, (Return a, m).

#[global] Instance M_bind {X} : MBind (M X) := λ A B k c m,
  match c m with
  | (Return a, m') => k a m'
  | (Raise e, m') => (Raise e, m')
  end.

Definition raise {X A} (e : exn) : M X A := λ m, (Raise e, m).

Definition lift {X A} (o : outcome A) : M X A := λ m, (o, m).

Definition get_self {X} : M X (Optimizer X) := λ m, (Return (self m), m).

Definition put_self {X} (o : Optimizer X) : M X unit :=
  λ m, (Return tt, mkMachine o (heap m)).

(** [d[...]] on a dictionary reference. *)
Definition read {X} (r : ref) : M X (gmap string float) := λ m,
  match heap m !! r with
  | Some d => (Return d, m)
  | None => (Raise TypeError, m)
  end.

Definition write {X} (r : ref) (d : gmap string float) : M X unit :=
  λ m, (Return tt, mkMachine (self m) (<[r := d]> (heap m))).

(** [Optimizer.__init__]. *)
Definition Optimizer__init__ {X} (lr : pyobj) (x : X) : Optimizer X :=
  let lr :=
    match lr with
    | Num r => Sched (schedulers.Constant r)
    | _ => lr
    end in
  {| lr := lr; n_iterations := 0; ext := x |}.

(** [self.lr.get(t)]: only a scheduler has the attribute [get]. *)
Definition call_get (lr : pyobj) (t : Z) : outcome number :=
  match lr with
  | Sched s => schedulers.get s t
  | _ => Raise AttributeError
  end.

(** The property [Optimizer.learning_rate]. *)
Definition learning_rate {X} : M X number :=
  o ← get_self;
  lift (call_get (lr o) (n_iterations o)).

(** [Optimizer.update_before_pred]. *)
Definition update_before_pred {X} (w : ref) : M X ref :=
  mret w.

(** The body of the abstract method [Optimizer._update_after_pred]. *)
Definition _update_after_pred {X} (w g : ref) : M X ref :=
  raise NotImplementedError.

(** A class derived from [Optimizer]: its name and the definition it gives
    of the abstract method, if it gives one. *)
Record pyclass (X : Type) : Type := mkClass {
  cls_name : string;
  cls_update_after_pred : option (ref → ref → M X ref)
}.
Arguments mkClass {X} cls_name cls_update_after_pred.
Arguments cls_name {X} _.
Arguments cls_update_after_pred {X} _.

(** [cls.__abstractmethods__], as [abc.ABCMeta] computes it. *)
Definition abstractmethods {X} (cls : pyclass X) : list string :=
  match cls_update_after_pred cls with
  | Some _ => []
  | None => ["_update_after_pred"%string]
  end.

(** [cls(lr)]: [abc.ABC] refuses to create an object of a class that still
    has abstract methods; otherwise [__init__] runs. *)
Definition instantiate {X} (cls : pyclass X) (lr : pyobj) (x : X)
  : outcome (Optimizer X) :=
  match abstractmethods cls with
  | [] => Return (Optimizer__init__ lr x)
  | _ :: _ => Raise TypeError
  end.

(** [self._update_after_pred], resolved along the class hierarchy. *)
Definition resolve_update_after_pred {X} (cls : pyclass X)
  : ref → ref → M X ref :=
  match cls_update_after_pred cls with
  | Some f => f
  | None => _update_after_pred
  end.

(** [self.n_iterations += 1]. *)
Definition incr_n_iterations {X} : M X unit :=
  o ← get_self;
  put_self {| lr := lr o; n_iterations := n_iterations o + 1; ext := ext o |}.

(** [Optimizer.update_after_pred]. *)
Definition update_after_pred {X} (cls : pyclass X) (w g : ref) : M X ref :=
  w ← resolve_update_after_pred cls w g;
  incr_n_iterations;;
  mret w.

(** [str(self)]. *)
Definition __str__ {X} (cls : pyclass X) : string := cls_name cls.

End base.

(** ** Callers of the optimizer *)

Module driver.
Import base.

(** A model calling [opt.update_after_pred(w, g)] once per example.  Each
    entry of the log pairs the machine as it was when the call was made
    with what the call gave back. *)
Fixpoint run_updates {X} (cls : pyclass X) (inputs : list (ref * ref))
    (m : machine X) : list (machine X * outcome ref) * machine X :=
  match inputs with
  | [] => ([], m)
  | (w, g) :: rest =>
      let '(r, m1) := update_after_pred cls w g m in
      let '(log, m2) := run_updates cls rest m1 in
      ((m, r) :: log, m2)
  end.

(** Reading [opt.learning_rate] [n] times in a row. *)
Fixpoint read_learning_rate {X} (n : nat) (m : machine X)
    : list (outcome number) * machine X :=
  match n with
  | O => ([], m)
  | S n =>
      let '(r, m1) := learning_rate m in
      let '(rs, m2) := read_learning_rate n m1 in
      (r :: rs, m2)
  end.

(** [self.n_iterations += 1] as a function on machines. *)
Definition bump {X} (m : machine X) : machine X :=
  mkMachine
    {| lr := lr (self m);
       n_iterations := n_iterations (self m) + 1;
       ext := ext (self m) |}
    (heap m).

(** A method that leaves the two attributes of the base class alone. *)
Definition keeps_base {X A} (c : M X A) : Prop :=
  ∀ m, lr (self (c m).2) = lr (self m)
       ∧ n_iterations (self (c m).2) = n_iterations (self m).

End driver.

(** ** A concrete optimizer *)

Module sgd.
Import base.

(** Modelled from the spec: the concrete optimizers are not among the
    sources.  This is the rule of the spec's end-to-end scenario, "subtract
    learning-rate times gradient": for every item [(i, gi)] of [g],
    [w[i] -= self.learning_rate * gi]. *)
Definition step (w : ref) (item : string * float) : M unit unit :=
  rate ← learning_rate;
  r ← lift (float_of_number rate);
  d ← read w;
  match d !! item.1 with
  | Some wi => write w (<[item.1 := (wi - r * item.2)%float]> d)
  | None => raise (KeyError item.1)
  end.

(** [for a in l: body(a)]. *)
Fixpoint for_each {A} (body : A → M unit unit) (l : list A) : M unit unit :=
  match l with
  | [] => mret tt
  | a :: l => body a;; for_each body l
  end.

Definition _update_after_pred (w g : ref) : M unit ref :=
  gd ← read g;
  for_each (step w) (map_to_list gd);;
  mret w.

Definition SGD : pyclass unit :=
  mkClass "SGD" (Some _update_after_pred).

(** A class that forgets to define the abstract method. *)
Definition Forgetful : pyclass unit :=
  mkClass "Forgetful" None.

(** The float [0.1]. *)
Definition tenth : float := 0x1.999999999999ap-4%float.

(** [w = {"a": 1.0}] at reference 1 and [g = {"a": 0.5}] at reference 2. *)
Definition store0 : gmap ref (gmap string float) :=
  <[1%positive := {["a"%string := 1%float]}]>
    (<[2%positive := {["a"%string := 0.5%float]}]> ∅).

(** A gradient with a key that [w] lacks: [g = {"b": 0.5}] at reference 2. *)
Definition store1 : gmap ref (gmap string float) :=
  <[1%positive := {["a"%string := 1%float]}]>
    (<[2%positive := {["b"%string := 0.5%float]}]> ∅).

(** Three examples in a row, each with [w] and [g] as above. *)
Definition examples : list (ref * ref) :=
  [(1%positive, 2%positive); (1%positive, 2%positive); (1%positive, 2%positive)].

End sgd.

(** ** The part of NumPy the initializers call *)

Module numpy.

(** A [shape] or [size] argument: an [int] or a tuple of [int]s. *)
Inductive shape : Type :=
| Int (k : Z)
| Tuple (dims : list Z).

Record ndarray (A : Type) : Type := mkArray {
  nd_shape : list Z;
  nd_data : list A
}.
Arguments mkArray {A} nd_shape nd_data.
Arguments nd_shape {A} _.
Arguments nd_data {A} _.

Definition dims (sh : shape) : list Z :=
  match sh with
  | Int k => [k]
  | Tuple ds => ds
  end.

(** The largest [npy_intp] of a 64-bit build: no dimension and no size in
    bytes goes beyond it. *)
Definition intp_max : Z := 2 ^ 63 - 1.

(** What bounds an array on the machine at hand: the number of dimensions
    the build allows ([NPY_MAXDIMS], 32 and later 64) and the bytes the
    allocator grants to one array, taken to be at least 64 KiB. *)
Record limits : Type := mkLimits {
  maxdims : nat;
  memory : Z;
  maxdims_ge : (32 ≤ maxdims)%nat;
  memory_ge : 2 ^ 16 ≤ memory
}.

(** The element type the values of [A] are stored with, by its size in
    bytes. *)
Class Dtype (A : Type) : Type := mkDtype {
  itemsize : Z;
  itemsize_pos : 0 < itemsize
}.
Arguments itemsize A {_}.
Arguments itemsize_pos A {_}.

(** A Python [float] is stored as a [float64]. *)
#[global] Instance float64 : Dtype float :=
  {| itemsize := 8; itemsize_pos := eq_refl |}.

(** A Python [int] is stored as an [int64], or as an object pointer when it
    does not fit. *)
#[global] Instance int64 : Dtype Z :=
  {| itemsize := 8; itemsize_pos := eq_refl |}.

(** No dimension is negative and none is beyond [npy_intp]. *)
Definition in_range (ds : list Z) : bool :=
  forallb (λ d, (0 <=? d) && (d <=? intp_max)) ds.

(** The dimensions that are not 0: the size check multiplies these. *)
Definition nonzero (ds : list Z) : list Z :=
  List.filter (λ d, negb (d =? 0)) ds.

(** The checks an array creation makes on its shape, for elements of [item]
    bytes: not too many dimensions, none negative or too large, a size in
    bytes that fits [npy_intp], and memory for it. *)
Definition check_dims (L : limits) (item : Z) (sh : shape)
  : outcome (list Z) :=
  let ds := dims sh in
  if (maxdims L <? length ds)%nat then Raise ValueError
  else if negb (in_range ds) then Raise ValueError
  else if intp_max <? item * foldr Z.mul 1 (nonzero ds) then Raise ValueError
  else if memory L <? item * foldr Z.mul 1 ds then Raise MemoryError
  else Return ds.

(** The number of elements of an array of the given dimensions. *)
Definition count (ds : list Z) : nat := Z.to_nat (foldr Z.mul 1 ds).

(** [np.full(shape, fill_value)] for a scalar [fill_value]. *)
Definition full {A} `{Dtype A} (L : limits) (sh : shape) (fill_value : A)
  : outcome (ndarray A) :=
  match check_dims L (itemsize A) sh with
  | Return ds => Return (mkArray ds (replicate (count ds) fill_value))
  | Raise e => Raise e
  end.

(** The generator behind [np.random.RandomState]: how a state is made from
    a seed, or from what the operating system supplies when there is no
    seed, and how one standard normal variate is drawn from a state. *)
Record generator : Type := mkGenerator {
  rng_state : Type;
  entropy : Type;
  init_by_seed : Z → rng_state;
  init_by_entropy : entropy → rng_state;
  legacy_gauss : rng_state → float * rng_state
}.

(** [np.random.RandomState(seed)]. *)
Definition RandomState (G : generator) (os : entropy G) (seed : option Z)
  : outcome (rng_state G) :=
  match seed with
  | None => Return (init_by_entropy G os)
  | Some s =>
      if (0 <=? s) && (s <? 2 ^ 32) then Return (init_by_seed G s)
      else Raise ValueError
  end.

(** [n] successive draws of [loc + scale * gauss]. *)
Fixpoint draws (G : generator) (n : nat) (loc scale : float)
    (st : rng_state G) : list float * rng_state G :=
  match n with
  | O => ([], st)
  | S n =>
      let '(z, st1) := legacy_gauss G st in
      let '(zs, st2) := draws G n loc scale st1 in
      ((loc + scale * z)%float :: zs, st2)
  end.

(** [not isnan(x) and signbit(x)]: [x] is below zero, or is the negative
    zero. *)
Definition signed (x : float) : bool :=
  ((x <? 0) || ((x =? 0) && (1 / x <? 0)))%float.

(** [RandomState.normal(loc, scale, size)] with an explicit [size]: the
    arguments are converted and the scale is checked before the array of
    [float64] is created, and the draws come last. *)
Definition normal (G : generator) (L : limits) (loc scale : number)
    (size : shape) (st : rng_state G)
  : outcome (ndarray float) * rng_state G :=
  match float_of_number loc, float_of_number scale with
  | Return l, Return s =>
      if signed s then (Raise ValueError, st)
      else
        match check_dims L (itemsize float) size with
        | Return ds =>
            let '(zs, st') := draws G (count ds) l s st in
            (Return (mkArray ds zs), st')
        | Raise e => (Raise e, st)
        end
  | Raise e, _ => (Raise e, st)
  | _, Raise e => (Raise e, st)
  end.

End numpy.

(** ** [river/optim/initializers.py] *)

Module initializers.
Import numpy.

(** What an initializer returns: a scalar or an array. *)
Inductive weights (A : Type) : Type :=
| Scalar (a : A)
| Array (a : ndarray A).
Arguments Scalar {A} a.
Arguments Array {A} a.

(** [shape != 1] and [shape == 1]: a tuple is never equal to [1]. *)
Definition ne_1 (sh : shape) : bool :=
  match sh with
  | Int k => negb (k =? 1)
  | Tuple _ => true
  end.

Definition eq_1 (sh : shape) : bool :=
  match sh with
  | Int k => k =? 1
  | Tuple _ => false
  end.

(** An object of class [Constant] or of a subclass of it. *)
Record Constant (A : Type) : Type := mkConstant {
  class_name : string;
  value : A
}.
Arguments mkConstant {A} class_name value.
Arguments class_name {A} _.
Arguments value {A} _.

(** [Constant.__init__], run on a new object of class [cls]. *)
Definition Constant__init__ {A} (cls : string) (value : A) : Constant A :=
  {| class_name := cls; value := value |}.

(** [Constant(value)]. *)
Definition Constant_ {A} (value : A) : Constant A :=
  Constant__init__ "Constant" value.

(** [Constant.__call__]. *)
Definition Constant__call__ {A} `{Dtype A} (L : limits) (self : Constant A)
    (sh : shape) : outcome (weights A) :=
  if ne_1 sh then
    match full L sh (value self) with
    | Return a => Return (Array a)
    | Raise e => Raise e
    end
  else Return (Scalar (value self)).

(** [Zeros.__init__]: [super().__init__(value=0.)]. *)
Definition Zeros__init__ (cls : string) : Constant float :=
  Constant__init__ cls 0%float.

(** [Zeros()]; [__call__] is inherited from [Constant]. *)
Definition Zeros : Constant float := Zeros__init__ "Zeros".

(** [Initializer.__str__]. *)
Definition __str__ {A} (self : Constant A) : string := class_name self.

(** An object of class [Normal]. *)
Record Normal (G : generator) : Type := mkNormal {
  mu : number;
  sigma : number;
  seed : option Z;
  _rng : rng_state G
}.
Arguments mkNormal {G} mu sigma seed _rng.
Arguments mu {G} _.
Arguments sigma {G} _.
Arguments seed {G} _.
Arguments _rng {G} _.

(** [Normal(mu, sigma, seed)], that is [Normal.__init__]. *)
Definition Normal__init__ (G : generator) (os : entropy G)
    (mu sigma : number) (seed : option Z) : outcome (Normal G) :=
  match RandomState G os seed with
  | Return st => Return {| mu := mu; sigma := sigma; seed := seed; _rng := st |}
  | Raise e => Raise e
  end.

(** [Normal.__call__]: the object comes back with its generator advanced. *)
Definition Normal__call__ {G} (L : limits) (sh : shape) (self : Normal G)
  : outcome (weights float) * Normal G :=
  let '(r, st) := normal G L (mu self) (sigma self) sh (_rng self) in
  let self' := {| mu := mu self; sigma := sigma self; seed := seed self; _rng := st |} in
  match r with
  | Return a =>
      if eq_1 sh then
        match nd_data a !! 0%nat with
        | Some x => (Return (Scalar x), self')
        | None => (Raise IndexError, self')
        end
      else (Return (Array a), self')
  | Raise e => (Raise e, self')
  end.

(** A model asking one initializer for weights, one request after another. *)
Fixpoint calls {G} (L : limits) (shapes : list shape) (self : Normal G)
    : list (outcome (weights float)) * Normal G :=
  match shapes with
  | [] => ([], self)
  | sh :: rest =>
      let '(r, self1) := Normal__call__ L sh self in
      let '(rs, self2) := calls L rest self1 in
      (r :: rs, self2)
  end.

(** A run: a new initializer is made and asked for the given shapes. *)
Definition run (G : generator) (L : limits) (os : entropy G)
    (mu sigma : number) (seed : option Z) (shapes : list shape)
  : outcome (list (outcome (weights float))) :=
  match Normal__init__ G os mu sigma seed with
  | Return self => Return (calls L shapes self).1
  | Raise e => Raise e
  end.

(** The requests that an array of [float64] can be made for. *)
Definition fits (L : limits) (sh : shape) : bool :=
  is_Return (check_dims L (itemsize float) sh).

(** How many numbers a list of requests asks for. *)
Definition requested (shapes : list shape) : nat :=
  sum_list (map (λ sh, count (dims sh)) shapes).

(** The numbers an answer holds, in order. *)
Definition elements {A} (r : outcome (weights A)) : list A :=
  match r with
  | Return (Scalar x) => [x]
  | Return (Array a) => nd_data a
  | Raise _ => []
  end.

End initializers.

(** ** A stand-in generator and a machine *)

Module toy.
Import numpy.

(** A generator whose state is a counter and whose draws are the counter's
    successive values; it stands in for the Mersenne Twister wherever a
    statement about every generator is tried on a concrete one. *)
Definition counting : generator :=
  {| rng_state := Z;
     entropy := Z;
     init_by_seed := λ s, s;
     init_by_entropy := λ e, e;
     legacy_gauss := λ st,
       (SF2Prim (binary_normalize prec emax st 0 false), st + 1) |}.

(** A build with 32 dimensions on a machine that grants 1 GiB. *)
Definition desktop : limits :=
  {| maxdims := 32;
     memory := 2 ^ 30;
     maxdims_ge := le_n 32;
     memory_ge := λ H : (2 ^ 16 ?= 2 ^ 30) = Gt, eq_ind Lt (λ c, match c with Gt => False | _ => True end) I Gt H |}.

End toy.

(** ** What the spec asks of the constructor *)

Module spec.
Import base.

(** The learning rates the spec calls configuration errors: a negative
    number, or a value that is neither a number nor a scheduler. *)
Definition invalid_lr (lr : pyobj) : bool :=
  match lr with
  | Num r => negative r
  | Sched _ => false
  | Str _ | None_ => true
  end.

End spec.

(** ** Longer sessions *)

Module session.
Import base driver numpy initializers.

(** One statement of a model's training loop: [opt.update_before_pred(w)],
    [opt.update_after_pred(w, g)] or a read of [opt.learning_rate]. *)
Inductive stmt : Type :=
| Before (w : ref)
| After (w g : ref)
| Rate.

(** The machine after a list of statements, whatever each one gave back. *)
Fixpoint run_stmts {X} (cls : pyclass X) (l : list stmt) (m : machine X)
    : machine X :=
  match l with
  | [] => m
  | Before w :: l => run_stmts cls l (update_before_pred w m).2
  | After w g :: l => run_stmts cls l (update_after_pred cls w g m).2
  | Rate :: l => run_stmts cls l (learning_rate m).2
  end.

(** The post-prediction updates among a list of statements. *)
Fixpoint updates (l : list stmt) : list (ref * ref) :=
  match l with
  | [] => []
  | After w g :: l => (w, g) :: updates l
  | _ :: l => updates l
  end.

(** How many calls of a log returned. *)
Definition returned {X} (log : list (machine X * outcome ref)) : nat :=
  length (List.filter (λ e, is_Return e.2) log).

(** Three dictionaries: [w = {"a": 1.0}] at reference 1, [g = {"a": 0.5}] at
    reference 2 and a gradient for a key that [w] lacks, [{"b": 0.5}], at
    reference 3. *)
Definition store2 : gmap ref (gmap string float) :=
  <[1%positive := {["a"%string := 1%float]}]>
    (<[2%positive := {["a"%string := 0.5%float]}]>
       (<[3%positive := {["b"%string := 0.5%float]}]> ∅)).

(** Three examples, the second with the gradient that cannot be applied. *)
Definition mixed_examples : list (ref * ref) :=
  [(1%positive, 2%positive); (1%positive, 3%positive); (1%positive, 2%positive)].

(** The initializer [Normal(0, 1, seed=42)] on the stand-in generator, as
    the constructor makes it. *)
Definition seeded : Normal toy.counting :=
  mkNormal (G:=toy.counting) (PyInt 0) (PyInt 1) (Some 42) 42.

(** [mu] and [sigma] that [RandomState.normal] refuses: one of them is an
    [int] too large for a float, or the sign bit of [sigma] is set. *)
Definition negative_or_unconvertible (mu sigma : number) : bool :=
  match float_of_number mu, float_of_number sigma with
  | Return _, Return s => signed s
  | _, _ => true
  end.

End session.

(** * Properties of the optimizer life cycle *)

Section lifecycle.
Import base driver.
Context {X : Type}.
Implicit Types (m : machine X) (w g : ref) (cls : pyclass X).

Lemma bind_Return {A B} (c : M X A) (k : A → M X B) m a m' :
  c m = (Return a, m') → (c ≫= k) m = k a m'.
Proof. intros H. unfold mbind, M_bind. by rewrite H. Qed.

Lemma bind_Raise {A B} (c : M X A) (k : A → M X B) m e m' :
  c m = (Raise e, m') → (c ≫= k) m = (Raise e, m').
Proof. intros H. unfold mbind, M_bind. by rewrite H. Qed.

(** One call, spelled out: the subclass's rule runs on the machine as the
    caller left it, and the counter moves only when the rule returns. *)
Lemma update_after_pred_unfold cls w g m :
  update_after_pred cls w g m =
    match resolve_update_after_pred cls w g m with
    | (Return w', m') => (Return w', bump m')
    | (Raise e, m') => (Raise e, m')
    end.
Proof.
  unfold update_after_pred.
  destruct (resolve_update_after_pred cls w g m) as [[w'|e] m'] eqn:E.
  - by rewrite (bind_Return _ _ _ _ _ E).
  - by rewrite (bind_Raise _ _ _ _ _ E).
Qed.

Lemma learning_rate_unfold m :
  learning_rate m = (call_get (lr (self m)) (n_iterations (self m)), m).
Proof. reflexivity. Qed.

Lemma keeps_base_ret {A} (a : A) : keeps_base (X:=X) (mret a).
Proof. by intros m. Qed.

Lemma keeps_base_raise {A} e : keeps_base (raise (X:=X) (A:=A) e).
Proof. by intros m. Qed.

Lemma keeps_base_lift {A} (o : outcome A) : keeps_base (lift (X:=X) o).
Proof. by intros m. Qed.

Lemma keeps_base_read r : keeps_base (read (X:=X) r).
Proof. intros m. unfold read. by destruct (heap m !! r). Qed.

Lemma keeps_base_write r d : keeps_base (write (X:=X) r d).
Proof. by intros m. Qed.

Lemma keeps_base_learning_rate : keeps_base (learning_rate (X:=X)).
Proof. by intros m. Qed.

Lemma keeps_base_bind {A B} (c : M X A) (k : A → M X B) :
  keeps_base c → (∀ a, keeps_base (k a)) → keeps_base (c ≫= k).
Proof.
  intros Hc Hk m. specialize (Hc m).
  unfold mbind, M_bind. destruct (c m) as [[a|e] m1]; simpl in *.
  - destruct (Hk a m1) as [H1 H2]. destruct Hc as [H3 H4]. split; congruence.
  - exact Hc.
Qed.

(** The counter after a run, from any starting machine. *)
Lemma run_updates_counter cls inputs : ∀ m,
  (∀ w g, keeps_base (resolve_update_after_pred cls w g)) →
  Forall (λ e, is_Return e.2 = true) (run_updates cls inputs m).1 →
  n_iterations (self (run_updates cls inputs m).2)
    = n_iterations (self m) + Z.of_nat (length inputs).
Proof.
  induction inputs as [|[w g] rest IH]; intros m Hk Hok; simpl.
  - lia.
  - simpl in Hok. rewrite update_after_pred_unfold in *.
    pose proof (Hk w g m) as [_ Hn].
    destruct (resolve_update_after_pred cls w g m) as [[w'|e] m1]; simpl in *.
    + destruct (run_updates cls rest (bump m1)) as [log m2] eqn:E.
      simpl in *. apply Forall_cons in Hok as [_ Hok].
      specialize (IH (bump m1) Hk). rewrite E in IH. simpl in IH.
      rewrite (IH Hok). lia.
    + destruct (run_updates cls rest m1) as [log m2].
      simpl in Hok. apply Forall_cons in Hok as [Hbad _]. discriminate.
Qed.

(** The machine each call of a run starts from. *)
Lemma run_updates_entry cls inputs : ∀ m (k : nat) mk r,
  (∀ w g, keeps_base (resolve_update_after_pred cls w g)) →
  Forall (λ e, is_Return e.2 = true) (run_updates cls inputs m).1 →
  (run_updates cls inputs m).1 !! k = Some (mk, r) →
  n_iterations (self mk) = n_iterations (self m) + Z.of_nat k
  ∧ lr (self mk) = lr (self m)
  ∧ ∃ w g, inputs !! k = Some (w, g) ∧ r = (update_after_pred cls w g mk).1.
Proof.
  induction inputs as [|[w g] rest IH]; intros m k mk r Hk Hok Hlook; simpl in *.
  - by rewrite lookup_nil in Hlook.
  - pose proof (Hk w g m) as [Hlr Hn].
    pose proof (update_after_pred_unfold cls w g m) as Hu.
    destruct (update_after_pred cls w g m) as [r1 m1] eqn:E1.
    destruct (run_updates cls rest m1) as [log m2] eqn:E2.
    simpl in *. apply Forall_cons in Hok as [Hr1 Hok]. simpl in Hr1.
    destruct k as [|k]; simpl in Hlook.
    + injection Hlook as <- <-. split; [lia|]. split; [done|].
      exists w, g. by rewrite E1.
    + specialize (IH m1 k mk r Hk). rewrite E2 in IH. simpl in IH.
      destruct (IH Hok Hlook) as (Hcount & Hsched & Hrest).
      rewrite Hcount, Hsched.
      destruct (resolve_update_after_pred cls w g m) as [[w'|e] m'];
        simpl in *; injection Hu as -> ->; simpl; [|discriminate].
      split; [lia|]. split; [done|exact Hrest].
Qed.

(** A run never changes the scheduler the optimizer was built with. *)
Lemma run_updates_lr cls inputs : ∀ m,
  (∀ w g, keeps_base (resolve_update_after_pred cls w g)) →
  lr (self (run_updates cls inputs m).2) = lr (self m).
Proof.
  induction inputs as [|[w g] rest IH]; intros m Hk; simpl; [done|].
  rewrite update_after_pred_unfold.
  pose proof (Hk w g m) as [Hlr _].
  destruct (resolve_update_after_pred cls w g m) as [[w'|e] m1]; simpl in *.
  - specialize (IH (bump m1) Hk).
    destruct (run_updates cls rest (bump m1)) as [log m2]. simpl in *.
    by rewrite IH.
  - specialize (IH m1 Hk).
    destruct (run_updates cls rest m1) as [log m2]. simpl in *.
    by rewrite IH.
Qed.

Lemma instantiate_counter cls lr0 x o :
  instantiate cls lr0 x = Return o → n_iterations o = 0.
Proof.
  unfold instantiate. destruct (abstractmethods cls); [|done].
  by intros [= <-].
Qed.

(** C1: an optimizer is constructed and [update_after_pred] is called once
    for each of [n] well-formed weight/gradient pairs (every call returns,
    and the subclass's rule leaves the base attributes alone).  Then the
    counter ends at [n], and the [k]-th call (counting from 0) starts with
    the counter at [k]: the subclass's rule runs first, on that machine, so
    the learning rate it reads is the scheduler's rate for [k], and only
    after it has returned is the counter set to [k + 1]. *)
Theorem update_after_pred_counts cls lr0 x o h (inputs : list (ref * ref))
    (Hnew : instantiate cls lr0 x = Return o)
    (Hkeeps : ∀ w g, keeps_base (resolve_update_after_pred cls w g))
    (Hok : Forall (λ e, is_Return e.2 = true)
             (run_updates cls inputs (mkMachine o h)).1) :
  n_iterations (self (run_updates cls inputs (mkMachine o h)).2)
    = Z.of_nat (length inputs)
  ∧ ∀ (k : nat) mk r,
      (run_updates cls inputs (mkMachine o h)).1 !! k = Some (mk, r) →
      n_iterations (self mk) = Z.of_nat k
      ∧ (learning_rate mk).1 = call_get (lr o) (Z.of_nat k)
      ∧ ∃ w g w' md,
          inputs !! k = Some (w, g)
          ∧ resolve_update_after_pred cls w g mk = (Return w', md)
          ∧ n_iterations (self md) = Z.of_nat k
          ∧ update_after_pred cls w g mk = (Return w', bump md)
          ∧ n_iterations (self (bump md)) = Z.of_nat k + 1
          ∧ r = Return w'.
Proof.
  pose proof (instantiate_counter _ _ _ _ Hnew) as H0.
  split.
  - rewrite (run_updates_counter cls inputs _ Hkeeps Hok). simpl. lia.
  - intros k mk r Hlook.
    destruct (run_updates_entry cls inputs _ k mk r Hkeeps Hok Hlook)
      as (Hcount & Hsched & w & g & Hin & Hr).
    simpl in Hcount, Hsched. rewrite H0 in Hcount.
    assert (Hk : n_iterations (self mk) = Z.of_nat k) by lia.
    split; [exact Hk|]. split.
    { rewrite learning_rate_unfold. simpl. by rewrite Hk, Hsched. }
    pose proof (Forall_lookup_1 _ _ _ _ Hok Hlook) as Hret. simpl in Hret.
    pose proof (update_after_pred_unfold cls w g mk) as Hu.
    pose proof (Hkeeps w g mk) as [_ Hn].
    destruct (resolve_update_after_pred cls w g mk) as [[w'|e] md] eqn:E;
      simpl in *.
    + exists w, g, w', md. rewrite Hu in Hr. simpl in Hr.
      repeat split; try done; lia.
    + rewrite Hu in Hr. simpl in Hr. subst r. discriminate.
Qed.

(** C2: the base class's [update_before_pred(w)] returns the very reference
    it was given, for every [w] and from every state; it raises nothing,
    and the counter, the other attributes of the optimizer and the stored
    dictionaries are as they were. *)
Theorem update_before_pred_identity w m :
  update_before_pred w m = (Return w, m)
  ∧ n_iterations (self (update_before_pred w m).2) = n_iterations (self m)
  ∧ self (update_before_pred w m).2 = self m
  ∧ heap (update_before_pred w m).2 = heap m.
Proof. done. Qed.

(** C3: built from a plain number [r], the optimizer holds the constant
    schedule of rate [r]; [learning_rate] read before any update is [r],
    and it is still [r] after any run of updates whose rule leaves the base
    attributes alone. *)
Theorem numeric_lr_constant_schedule cls (r : number) x h inputs
    (Hkeeps : ∀ w g, keeps_base (resolve_update_after_pred cls w g)) :
  lr (Optimizer__init__ (Num r) x) = Sched (schedulers.Constant r)
  ∧ (learning_rate (mkMachine (Optimizer__init__ (Num r) x) h)).1 = Return r
  ∧ (learning_rate
       (run_updates cls inputs
          (mkMachine (Optimizer__init__ (Num r) x) h)).2).1 = Return r.
Proof.
  split; [done|]. split; [done|].
  rewrite learning_rate_unfold. simpl.
  by rewrite (run_updates_lr cls inputs _ Hkeeps).
Qed.

(** C4: reading [learning_rate] changes nothing, whatever the scheduler and
    the counter are, so [n] reads in a row give [n] times the same answer
    and leave the machine as it was. *)
Theorem learning_rate_pure m (n : nat) :
  (learning_rate m).2 = m
  ∧ read_learning_rate n m = (replicate n (learning_rate m).1, m).
Proof.
  split; [done|].
  induction n as [|n IH]; simpl; [done|].
  by rewrite IH.
Qed.

(** C8, as amended: the constructor of a concrete class does not fail on
    account of the learning rate, which it does not validate.  It returns an
    optimizer whose counter is 0 and in which a number, negative or not, has
    become the constant schedule of that rate, and any other value is
    stored as it was given. *)
Theorem constructor_accepts_any_lr cls lr0 x
    (Hconcrete : abstractmethods cls = []) :
  instantiate cls lr0 x = Return (Optimizer__init__ lr0 x)
  ∧ lr (Optimizer__init__ lr0 x) =
      match lr0 with
      | Num r => Sched (schedulers.Constant r)
      | _ => lr0
      end
  ∧ n_iterations (Optimizer__init__ lr0 x) = 0.
Proof.
  split.
  - unfold instantiate. by rewrite Hconcrete.
  - by destruct lr0.
Qed.

(** C9: a class that does not define [_update_after_pred] cannot be
    instantiated, whatever the arguments; and were the method reached all
    the same, on such a class or through [super()], the call raises, hands
    back no weights and leaves the machine untouched. *)
Theorem missing_update_is_an_error cls
    (Hmissing : cls_update_after_pred cls = None) :
  (∀ lr0 x, instantiate cls lr0 x = Raise TypeError)
  ∧ (∀ w g m, update_after_pred cls w g m = (Raise NotImplementedError, m))
  ∧ (∀ name w g m,
       update_after_pred (mkClass name (Some _update_after_pred)) w g m
         = (Raise NotImplementedError, m)).
Proof.
  split; [|split].
  - intros lr0 x. unfold instantiate, abstractmethods. by rewrite Hmissing.
  - intros w g m. rewrite update_after_pred_unfold.
    unfold resolve_update_after_pred. by rewrite Hmissing.
  - intros name w g m. by rewrite update_after_pred_unfold.
Qed.

(** C10: when the subclass's rule raises, [update_after_pred] raises the
    same exception and leaves the machine exactly as the rule left it: the
    increment is not run.  The rule not having touched the counter, the
    counter is what it was before the call. *)
Theorem failed_update_not_counted cls w g m e
    (Hraise : (resolve_update_after_pred cls w g m).1 = Raise e)
    (Hrule : n_iterations (self (resolve_update_after_pred cls w g m).2)
               = n_iterations (self m)) :
  update_after_pred cls w g m
    = (Raise e, (resolve_update_after_pred cls w g m).2)
  ∧ n_iterations (self (update_after_pred cls w g m).2)
      = n_iterations (self m).
Proof.
  rewrite update_after_pred_unfold.
  destruct (resolve_update_after_pred cls w g m) as [[w'|e'] m1];
    simpl in *; [discriminate|].
  injection Hraise as ->. done.
Qed.

End lifecycle.

Create HintDb keeps discriminated.

#[global] Hint Resolve keeps_base_ret keeps_base_raise keeps_base_lift
  keeps_base_read keeps_base_write keeps_base_learning_rate : keeps.

(** Walks down a method body, one statement at a time. *)
Ltac keeps :=
  repeat first
    [ solve [auto with keeps]
    | apply keeps_base_bind; [|intros ?] ].

(** ** The life cycle on the concrete optimizer *)

Section on_sgd.
Import base driver sgd.

Lemma for_each_keeps_base {A} (body : A → M unit unit) (l : list A) :
  (∀ a, keeps_base (body a)) → keeps_base (for_each body l).
Proof.
  intros Hbody. induction l as [|a l IH]; simpl; keeps.
Qed.

Lemma step_keeps_base w item : keeps_base (step w item).
Proof.
  unfold step. keeps.
  destruct (_ !! _); keeps.
Qed.

Lemma SGD_keeps_base w g :
  keeps_base (resolve_update_after_pred SGD w g).
Proof.
  simpl. unfold sgd._update_after_pred. keeps.
  apply for_each_keeps_base, step_keeps_base.
Qed.

(** The spec's end-to-end scenario: with [lr = 0.1], [w = {"a": 1.0}] and
    [g = {"a": 0.5}], one update returns [w], stores [0.95] under ["a"],
    brings the counter to 1 and leaves the learning rate at [0.1]. *)
Example end_to_end :
  let m0 := mkMachine (Optimizer__init__ (Num (PyFloat tenth)) tt) store0 in
  let r := update_after_pred SGD 1%positive 2%positive m0 in
  r.1 = Return 1%positive
  ∧ heap r.2 !! 1%positive ≫= (.!! "a"%string) = Some 0x1.e666666666666p-1%float
  ∧ n_iterations (self r.2) = 1
  ∧ (learning_rate r.2).1 = Return (PyFloat tenth).
Proof. vm_compute. done. Qed.

Lemma update_after_pred_counts_witness :
  n_iterations
    (self (run_updates SGD examples
             (mkMachine (Optimizer__init__ (Num (PyFloat tenth)) tt) store0)).2)
    = 3.
Proof.
  refine (proj1 (update_after_pred_counts SGD (Num (PyFloat tenth)) tt _
                   store0 examples eq_refl SGD_keeps_base _)).
  vm_compute. repeat constructor.
Defined.

Lemma numeric_lr_constant_schedule_witness :
  (learning_rate
     (run_updates SGD examples
        (mkMachine (Optimizer__init__ (Num (PyFloat tenth)) tt) store0)).2).1
    = Return (PyFloat tenth).
Proof.
  exact (proj2 (proj2 (numeric_lr_constant_schedule SGD (PyFloat tenth) tt
                         store0 examples SGD_keeps_base))).
Defined.

(** C8, as the spec has it, fails: a negative learning rate and a string
    are both configuration errors for the spec, and the constructor
    returns an optimizer for each. *)
Lemma invalid_lr_accepted :
  spec.invalid_lr (Num (PyFloat (- tenth))) = true
  ∧ instantiate SGD (Num (PyFloat (- tenth))) tt
      = Return {| lr := Sched (schedulers.Constant (PyFloat (- tenth)));
                  n_iterations := 0; ext := tt |}
  ∧ spec.invalid_lr (Str "fast") = true
  ∧ instantiate SGD (Str "fast") tt
      = Return {| lr := Str "fast"; n_iterations := 0; ext := tt |}.
Proof. vm_compute. done. Qed.

Lemma constructor_accepts_any_lr_witness :
  instantiate SGD (Num (PyFloat (- tenth))) tt
    = Return (Optimizer__init__ (Num (PyFloat (- tenth))) tt)
  ∧ lr (Optimizer__init__ (X:=unit) (Num (PyFloat (- tenth))) tt)
      = Sched (schedulers.Constant (PyFloat (- tenth)))
  ∧ n_iterations (Optimizer__init__ (X:=unit) (Num (PyFloat (- tenth))) tt) = 0.
Proof.
  exact (constructor_accepts_any_lr SGD (Num (PyFloat (- tenth))) tt eq_refl).
Defined.

Lemma missing_update_is_an_error_witness :
  instantiate Forgetful (Num (PyFloat tenth)) tt = Raise TypeError.
Proof.
  exact (proj1 (missing_update_is_an_error Forgetful eq_refl)
           (Num (PyFloat tenth)) tt).
Defined.

Lemma failed_update_not_counted_witness :
  update_after_pred SGD 1%positive 2%positive
    (mkMachine (mkOptimizer (Sched (schedulers.Constant (PyFloat tenth))) 7 tt)
       store1)
    = (Raise (KeyError "b"),
       mkMachine (mkOptimizer (Sched (schedulers.Constant (PyFloat tenth))) 7 tt)
         store1).
Proof.
  refine (eq_trans
            (proj1 (failed_update_not_counted SGD 1%positive 2%positive
                      (mkMachine
                         (mkOptimizer
                            (Sched (schedulers.Constant (PyFloat tenth))) 7 tt)
                         store1)
                      (KeyError "b") _ _)) _);
    vm_compute; reflexivity.
Defined.

End on_sgd.

(** * Properties of the initializers *)

Section initializer_properties.
Import numpy initializers.

Lemma intp_max_eq : intp_max = 9223372036854775807.
Proof. reflexivity. Qed.

Lemma memory_lower (L : limits) : 65536 ≤ memory L.
Proof. exact (memory_ge L). Qed.

Lemma maxdims_lower (L : limits) : (32 ≤ maxdims L)%nat.
Proof. exact (maxdims_ge L). Qed.

Lemma in_range_Forall (ds : list Z) :
  in_range ds = true ↔ Forall (λ d, 0 ≤ d ≤ intp_max) ds.
Proof.
  unfold in_range. rewrite forallb_forall, Forall_forall.
  split; intros H d Hd.
  - apply list_elem_of_In in Hd. specialize (H d Hd). lia.
  - apply list_elem_of_In in Hd. specialize (H d Hd). lia.
Qed.

(** What a shape that passes the checks satisfies. *)
Lemma check_dims_Return L item sh ds :
  check_dims L item sh = Return ds →
  ds = dims sh
  ∧ (length (dims sh) ≤ maxdims L)%nat
  ∧ Forall (λ d, 0 ≤ d ≤ intp_max) (dims sh)
  ∧ item * foldr Z.mul 1 (nonzero (dims sh)) ≤ intp_max
  ∧ item * foldr Z.mul 1 (dims sh) ≤ memory L.
Proof.
  unfold check_dims.
  destruct (maxdims L <? length (dims sh))%nat eqn:E1; [done|].
  destruct (in_range (dims sh)) eqn:E2; [|done]. simpl.
  destruct (intp_max <? _) eqn:E3; [done|].
  destruct (memory L <? _) eqn:E4; [done|].
  intros [= <-]. apply in_range_Forall in E2.
  apply Nat.ltb_ge in E1. apply Z.ltb_ge in E3, E4. done.
Qed.

(** The shapes that pass the checks. *)
Lemma check_dims_ok L item sh :
  (length (dims sh) ≤ maxdims L)%nat →
  Forall (λ d, 0 ≤ d ≤ intp_max) (dims sh) →
  item * foldr Z.mul 1 (nonzero (dims sh)) ≤ intp_max →
  item * foldr Z.mul 1 (dims sh) ≤ memory L →
  check_dims L item sh = Return (dims sh).
Proof.
  intros H1 H2 H3 H4. unfold check_dims.
  apply Nat.ltb_ge in H1 as ->. apply in_range_Forall in H2 as ->. simpl.
  apply Z.ltb_ge in H3 as ->. by apply Z.ltb_ge in H4 as ->.
Qed.

Lemma check_dims_Raise L item sh e :
  check_dims L item sh = Raise e → e = ValueError ∨ e = MemoryError.
Proof.
  unfold check_dims. repeat case_match; intros [= <-]; auto.
Qed.

(** A request for [k] elements, [k] not 0. *)
Lemma check_dims_Int L item (k : Z) :
  0 < item → 0 < k → k * item ≤ intp_max → k * item ≤ memory L →
  check_dims L item (Int k) = Return [k].
Proof.
  intros Hitem Hk Hsize Hmem.
  apply (check_dims_ok L item (Int k)); simpl.
  - pose proof (maxdims_lower L). lia.
  - constructor; [nia|constructor].
  - assert ((k =? 0) = false) as -> by lia. simpl. lia.
  - lia.
Qed.

(** C5, as amended: [Constant(v)(1)] is [v] itself, not an array; for an
    integer [k > 1] whose [k] elements fit the largest array size and the
    memory of the machine, [Constant(v)(k)] is a one-dimensional array of
    [k] elements, each of them [v]; and the answer depends on the stored
    value and the shape only, so the same request always gets the same
    answer. *)
Theorem Constant_call {A} `{Dtype A} (L : limits) (v : A) (k : Z)
    (Hk : 1 < k)
    (Hsize : k * itemsize A ≤ intp_max)
    (Hmem : k * itemsize A ≤ memory L) :
  Constant__call__ L (Constant_ v) (Int 1) = Return (Scalar v)
  ∧ (∃ a, Constant__call__ L (Constant_ v) (Int k) = Return (Array a)
          ∧ nd_shape a = [k]
          ∧ Z.of_nat (length (nd_data a)) = k
          ∧ Forall (λ x, x = v) (nd_data a))
  ∧ (∀ (c1 c2 : Constant A) sh,
       value c1 = value c2 →
       Constant__call__ L c1 sh = Constant__call__ L c2 sh).
Proof.
  split; [done|]. split.
  - exists (mkArray [k] (replicate (Z.to_nat k) v)).
    unfold Constant__call__, full. simpl.
    assert ((k =? 1) = false) as -> by lia. simpl.
    rewrite (check_dims_Int L (itemsize A) k (itemsize_pos A)) by lia.
    unfold count. simpl. rewrite Z.mul_1_r.
    repeat split.
    + rewrite length_replicate. lia.
    + by apply Forall_replicate.
  - intros c1 c2 sh Hv. unfold Constant__call__. by rewrite Hv.
Qed.

Lemma Constant_call_witness :
  Constant__call__ toy.desktop (Constant_ 0x1.91eb851eb851fp+1%float) (Int 1)
    = Return (Scalar 0x1.91eb851eb851fp+1%float)
  ∧ ∃ a, Constant__call__ toy.desktop (Constant_ 0x1.91eb851eb851fp+1%float)
           (Int 2) = Return (Array a)
         ∧ nd_shape a = [2]
         ∧ Z.of_nat (length (nd_data a)) = 2
         ∧ Forall (λ x, x = 0x1.91eb851eb851fp+1%float) (nd_data a).
Proof.
  assert (H1 : 2 * itemsize float ≤ intp_max) by (vm_compute; discriminate).
  assert (H2 : 2 * itemsize float ≤ memory toy.desktop)
    by (vm_compute; discriminate).
  pose proof (Constant_call toy.desktop 0x1.91eb851eb851fp+1%float 2
                ltac:(lia) H1 H2) as H.
  exact (conj (proj1 H) (proj1 (proj2 H))).
Defined.

(** C5, as the spec has it, fails: 2 ** 63 is a shape greater than 1, and
    [Constant(3.14)(2 ** 63)] raises instead of returning an array. *)
Lemma Constant_call_beyond_intp :
  1 < 2 ^ 63
  ∧ Constant__call__ toy.desktop (Constant_ 0x1.91eb851eb851fp+1%float)
      (Int (2 ^ 63)) = Raise ValueError.
Proof. split; [done|]. vm_compute. reflexivity. Qed.

(** C7: [Zeros()] answers every request as [Constant(0.0)] does; asked for
    shape 1 it gives the scalar [0.0], asked for 3 an array of three
    zeros. *)
Theorem Zeros_is_Constant_zero (L : limits) (sh : shape) :
  Constant__call__ L Zeros sh = Constant__call__ L (Constant_ 0%float) sh
  ∧ Constant__call__ L Zeros (Int 1) = Return (Scalar 0%float)
  ∧ Constant__call__ L Zeros (Int 3)
      = Return (Array (mkArray [3] [0%float; 0%float; 0%float])).
Proof.
  split; [done|]. split; [done|].
  unfold Constant__call__, full. simpl.
  rewrite (check_dims_Int L 8 3); [done|lia|lia| |].
  - rewrite intp_max_eq. lia.
  - pose proof (memory_lower L). lia.
Qed.

(** The two objects are told apart by their class all the same. *)
Example Zeros_str :
  __str__ Zeros = "Zeros"%string
  ∧ __str__ (Constant_ 0%float) = "Constant"%string.
Proof. done. Qed.

Lemma draws_app G (a b : nat) l s st :
  draws G (a + b) l s st =
    (((draws G a l s st).1 ++ (draws G b l s (draws G a l s st).2).1),
     (draws G b l s (draws G a l s st).2).2).
Proof.
  revert st. induction a as [|a IH]; intros st; simpl.
  - by destruct (draws G b l s st).
  - destruct (legacy_gauss G st) as [z st1].
    rewrite IH.
    destruct (draws G a l s st1) as [zs st2]. simpl.
    by destruct (draws G b l s st2).
Qed.

Lemma eq_1_dims sh : eq_1 sh = true → sh = Int 1.
Proof.
  destruct sh as [k|ds]; simpl; [|done].
  intros H. f_equal. lia.
Qed.

Lemma fits_check_dims L sh :
  fits L sh = true → check_dims L (itemsize float) sh = Return (dims sh).
Proof.
  unfold fits. destruct (check_dims L (itemsize float) sh) as [ds|e] eqn:E;
    [|done].
  intros _. by apply check_dims_Return in E as [-> _].
Qed.

(** One request that is answered takes the next numbers of the stream. *)
Lemma Normal_call_stream G L (sh : shape) (self : Normal G) l s :
  float_of_number (mu self) = Return l →
  float_of_number (sigma self) = Return s →
  signed s = false →
  fits L sh = true →
  elements (Normal__call__ L sh self).1
    = (draws G (count (dims sh)) l s (_rng self)).1
  ∧ _rng (Normal__call__ L sh self).2
      = (draws G (count (dims sh)) l s (_rng self)).2
  ∧ mu (Normal__call__ L sh self).2 = mu self
  ∧ sigma (Normal__call__ L sh self).2 = sigma self.
Proof.
  intros Hl Hs Hneg Hfits. apply fits_check_dims in Hfits.
  unfold Normal__call__, normal. rewrite Hl, Hs, Hneg, Hfits.
  destruct (eq_1 sh) eqn:E1.
  - apply eq_1_dims in E1 as ->. simpl.
    destruct (legacy_gauss G (_rng self)) as [z st1]. done.
  - destruct (draws G (count (dims sh)) l s (_rng self)) as [zs st']. done.
Qed.

Lemma calls_app G L (h1 h2 : list shape) : ∀ (self : Normal G),
  calls L (h1 ++ h2) self =
    ((calls L h1 self).1 ++ (calls L h2 (calls L h1 self).2).1,
     (calls L h2 (calls L h1 self).2).2).
Proof.
  induction h1 as [|sh h1 IH]; intros self; simpl.
  - by destruct (calls L h2 self).
  - destruct (Normal__call__ L sh self) as [r self1].
    rewrite IH. by destruct (calls L h1 self1).
Qed.

End initializer_properties.

(** * Further properties of [Constant] *)

Section constant_shapes.
Import numpy initializers session.

Lemma out_of_range (ds : list Z) :
  Exists (λ d, d < 0 ∨ intp_max < d) ds → in_range ds = false.
Proof.
  unfold in_range. induction 1 as [d ds Hd|d ds _ IH]; simpl.
  - apply andb_false_iff. left. apply andb_false_iff. lia.
  - rewrite IH. apply andb_false_r.
Qed.

Lemma product_nonneg (ds : list Z) :
  Forall (λ d, 0 ≤ d) ds → 0 ≤ foldr Z.mul 1 ds.
Proof.
  induction 1 as [|d ds Hd _ IH]; simpl; [lia|]. by apply Z.mul_nonneg_nonneg.
Qed.

Lemma product_zero (ds : list Z) : 0 ∈ ds → foldr Z.mul 1 ds = 0.
Proof.
  induction ds as [|d ds IH]; simpl; intros H.
  - by apply elem_of_nil in H.
  - apply elem_of_cons in H as [<-|H]; [lia|]. rewrite (IH H). lia.
Qed.

Lemma ne_1_eq_1 sh : ne_1 sh = negb (eq_1 sh).
Proof. by destruct sh. Qed.

Lemma eq_1_iff sh : eq_1 sh = true ↔ sh = Int 1.
Proof.
  split; [apply eq_1_dims|]. by intros ->.
Qed.

(** X2: for an integer other than 1 or a tuple of integers, with at most
    32 dimensions, none of them negative, and a size that fits the largest
    array and the memory of the machine, [Constant(v)(shape)] is an array of
    exactly that shape; it holds as many elements as the product of the
    dimensions, each of them [v], and none at all when a dimension is 0. *)
Theorem Constant_array {A} `{Dtype A} (L : limits) (c : Constant A)
    (sh : shape)
    (Hsh : sh ≠ Int 1)
    (Hnd : (length (dims sh) ≤ 32)%nat)
    (Hdims : Forall (λ d, 0 ≤ d ≤ intp_max) (dims sh))
    (Hsize : itemsize A * foldr Z.mul 1 (nonzero (dims sh)) ≤ intp_max)
    (Hmem : itemsize A * foldr Z.mul 1 (dims sh) ≤ memory L) :
  ∃ a, Constant__call__ L c sh = Return (Array a)
       ∧ nd_shape a = dims sh
       ∧ Z.of_nat (length (nd_data a)) = foldr Z.mul 1 (dims sh)
       ∧ Forall (λ x, x = value c) (nd_data a)
       ∧ (0 ∈ dims sh → nd_data a = []).
Proof.
  exists (mkArray (dims sh) (replicate (count (dims sh)) (value c))).
  unfold Constant__call__, full. rewrite ne_1_eq_1.
  rewrite (check_dims_ok L (itemsize A) sh); [|..|done|done|done].
  2:{ pose proof (maxdims_lower L). lia. }
  destruct (eq_1 sh) eqn:E; [by apply eq_1_iff in E|]. simpl.
  split; [done|]. split; [done|]. split; [|split].
  - rewrite length_replicate. unfold count.
    apply Z2Nat.id, product_nonneg.
    eapply Forall_impl; [exact Hdims|]. simpl. lia.
  - by apply Forall_replicate.
  - intros H0. unfold count. by rewrite (product_zero _ H0).
Qed.

Lemma Constant_array_witness :
  ∃ a, Constant__call__ toy.desktop (Constant_ 7) (Tuple [2; 0; 3])
         = Return (Array a)
       ∧ nd_shape a = [2; 0; 3]
       ∧ nd_data a = [].
Proof.
  destruct (Constant_array toy.desktop (Constant_ 7) (Tuple [2; 0; 3])
              ltac:(discriminate) ltac:(simpl; lia)
              ltac:(rewrite intp_max_eq; repeat constructor; lia)
              ltac:(vm_compute; discriminate)
              ltac:(vm_compute; discriminate))
    as (a & Ha & Hs & _ & _ & H0).
  exists a. split; [exact Ha|]. split; [exact Hs|].
  apply H0. simpl. set_solver.
Defined.

(** X3: a shape with a negative dimension, with a dimension of 2 ** 63 or
    more, or with non-zero dimensions whose size in bytes exceeds the
    largest array, is refused: [Constant(v)(shape)] raises the [ValueError]
    of [np.full], as [Constant] checks nothing itself. *)
Theorem Constant_refuses {A} `{Dtype A} (L : limits) (c : Constant A)
    (sh : shape)
    (Hsh : sh ≠ Int 1)
    (Hbad : Exists (λ d, d < 0 ∨ intp_max < d) (dims sh)
            ∨ intp_max < itemsize A * foldr Z.mul 1 (nonzero (dims sh))) :
  Constant__call__ L c sh = Raise ValueError.
Proof.
  unfold Constant__call__, full, check_dims. rewrite ne_1_eq_1.
  destruct (eq_1 sh) eqn:E; [by apply eq_1_iff in E|]. simpl.
  destruct (maxdims L <? length (dims sh))%nat; [done|].
  destruct Hbad as [Hbad|Hbad].
  - by rewrite (out_of_range _ Hbad).
  - destruct (in_range (dims sh)); [|done]. simpl.
    by apply Z.ltb_lt in Hbad as ->.
Qed.

Lemma Constant_refuses_witness :
  Constant__call__ toy.desktop (Constant_ 7)
    (Tuple [2 ^ 31; 2 ^ 31; 2 ^ 31]) = Raise ValueError
  ∧ Constant__call__ toy.desktop (Constant_ 7) (Tuple [2; -1])
      = Raise ValueError.
Proof.
  split.
  - refine (Constant_refuses toy.desktop (Constant_ 7)
              (Tuple [2 ^ 31; 2 ^ 31; 2 ^ 31]) _ (or_intror _));
      [discriminate|vm_compute; reflexivity].
  - refine (Constant_refuses toy.desktop (Constant_ 7) (Tuple [2; -1])
              _ (or_introl _)); [discriminate|].
    apply Exists_cons_tl, Exists_cons_hd. left. lia.
Defined.

End constant_shapes.

(** * Properties of [Normal] *)

Section normal_calls.
Import numpy initializers session.
Context (G : generator) (L : limits).
Implicit Types (self : Normal G) (sh : shape).

Lemma float_of_number_Raise x e :
  float_of_number x = Raise e → e = OverflowError.
Proof.
  destruct x as [z|f]; simpl; [|done].
  destruct (is_infinity _); [|done]. by intros [= <-].
Qed.

Lemma draws_length n l s st : length (draws G n l s st).1 = n.
Proof.
  revert st. induction n as [|n IH]; intros st; simpl; [done|].
  destruct (legacy_gauss G st) as [z st1]. specialize (IH st1).
  destruct (draws G n l s st1) as [zs st2]. simpl in *. by rewrite IH.
Qed.

Lemma count_Int_1 : count (dims (Int 1)) = 1%nat.
Proof. reflexivity. Qed.

Lemma not_fits sh :
  fits L sh = false →
  ∃ e, check_dims L (itemsize float) sh = Raise e
       ∧ (e = ValueError ∨ e = MemoryError).
Proof.
  unfold fits. destruct (check_dims L (itemsize float) sh) as [ds|e] eqn:E;
    [done|].
  intros _. exists e. split; [done|]. by apply check_dims_Raise in E.
Qed.

(** What one call does, case by case. *)
Lemma Normal_call_cases sh self :
  (∃ l s,
     float_of_number (mu self) = Return l
     ∧ float_of_number (sigma self) = Return s
     ∧ signed s = false
     ∧ fits L sh = true
     ∧ (Normal__call__ L sh self).2
         = mkNormal (mu self) (sigma self) (seed self)
             (draws G (count (dims sh)) l s (_rng self)).2
     ∧ ((sh = Int 1
         ∧ ∃ x, (Normal__call__ L sh self).1 = Return (Scalar x)
                ∧ (draws G 1 l s (_rng self)).1 = [x])
        ∨ (sh ≠ Int 1
           ∧ (Normal__call__ L sh self).1
               = Return (Array (mkArray (dims sh)
                   (draws G (count (dims sh)) l s (_rng self)).1)))))
  ∨ (∃ e, Normal__call__ L sh self = (Raise e, self)
          ∧ (e = ValueError ∨ e = OverflowError ∨ e = MemoryError)
          ∧ (fits L sh = false
             ∨ negative_or_unconvertible (mu self) (sigma self) = true)).
Proof.
  destruct self as [m sg sd st]. unfold Normal__call__, normal.
  cbn [mu sigma seed _rng]. unfold negative_or_unconvertible.
  destruct (float_of_number m) as [l|e1] eqn:El.
  2:{ right. exists e1. apply float_of_number_Raise in El as ->.
      destruct (float_of_number sg); simpl; auto. }
  destruct (float_of_number sg) as [s|e2] eqn:Es.
  2:{ right. exists e2. apply float_of_number_Raise in Es as ->. auto. }
  destruct (signed s) eqn:Eneg.
  { right. exists ValueError. auto. }
  destruct (fits L sh) eqn:Ev.
  2:{ right. destruct (not_fits sh Ev) as (e & -> & [->| ->]);
        eexists; split; [done| |done| ]; auto. }
  rewrite (fits_check_dims L sh Ev).
  left. exists l, s. do 4 (split; [done|]).
  destruct (eq_1 sh) eqn:E1.
  - apply eq_1_iff in E1 as ->. rewrite count_Int_1. simpl.
    destruct (legacy_gauss G st) as [z st1]. simpl.
    split; [done|]. left. split; [done|]. by eexists.
  - destruct (draws G (count (dims sh)) l s st) as [zs st']. simpl.
    split; [done|]. right. split; [|done].
    intros ->. discriminate.
Qed.

Lemma Normal_call_Raise sh self e :
  (Normal__call__ L sh self).1 = Raise e →
  Normal__call__ L sh self = (Raise e, self)
  ∧ (e = ValueError ∨ e = OverflowError ∨ e = MemoryError).
Proof.
  intros Hr.
  destruct (Normal_call_cases sh self)
    as [(l & s & _ & _ & _ & _ & _ & [[_ (x & Hx & _)]|[_ Ha]])
       |(e' & Hcall & He & _)].
  - rewrite Hx in Hr. discriminate.
  - rewrite Ha in Hr. discriminate.
  - rewrite Hcall in Hr. simpl in Hr. injection Hr as ->. done.
Qed.

Lemma Normal_call_attributes sh self :
  mu (Normal__call__ L sh self).2 = mu self
  ∧ sigma (Normal__call__ L sh self).2 = sigma self
  ∧ seed (Normal__call__ L sh self).2 = seed self.
Proof.
  destruct (Normal_call_cases sh self)
    as [(l & s & _ & _ & _ & _ & -> & _)|(e & -> & _)]; done.
Qed.

(** The stream over any list of requests: the refused ones take nothing. *)
Lemma calls_stream (shapes : list shape) l s : ∀ self,
  float_of_number (mu self) = Return l →
  float_of_number (sigma self) = Return s →
  signed s = false →
  concat (map elements (calls L shapes self).1)
    = (draws G (requested (List.filter (fits L) shapes)) l s (_rng self)).1
  ∧ _rng (calls L shapes self).2
      = (draws G (requested (List.filter (fits L) shapes)) l s (_rng self)).2.
Proof.
  induction shapes as [|sh rest IH]; intros self Hl Hs Hneg; [done|].
  simpl. destruct (fits L sh) eqn:Ev.
  - destruct (Normal_call_stream G L sh self l s Hl Hs Hneg Ev)
      as (Hel & Hrng & Hmu & Hsigma).
    unfold requested. simpl. rewrite draws_app. simpl.
    destruct (Normal__call__ L sh self) as [r self1]. simpl in *.
    specialize (IH self1). rewrite Hmu, Hsigma in IH.
    destruct (IH Hl Hs Hneg) as [IH1 IH2].
    destruct (calls L rest self1) as [rs self2]. simpl in *.
    unfold requested in IH1, IH2. by rewrite Hel, IH1, IH2, Hrng.
  - destruct (Normal_call_cases sh self)
      as [(? & ? & _ & _ & _ & Hv & _)|(e & Hcall & _)]; [congruence|].
    rewrite Hcall. destruct (IH self Hl Hs Hneg) as [IH1 IH2].
    destruct (calls L rest self) as [rs self2]. simpl in *. done.
Qed.

(** C6: a seed in range always gives an initializer, and the same one
    whatever the operating system would have supplied had there been no
    seed: its generator is the seed's.  So two [Normal] initializers newly
    made with the same [mu], [sigma] and seed answer the same list of
    requests with the same list of results, float for float, and each run
    returns.  An initializer draws from one stream of its own: the answers
    to later requests are computed from the object as the earlier ones left
    it, and the numbers handed out over a list of requests are, in order,
    the first numbers of the seed's stream, as many as the answered
    requests ask for. *)
Theorem Normal_reproducible (m sg : number) (S : Z)
    (os1 os2 : entropy G) (shapes : list shape)
    (Hseed : 0 ≤ S < 2 ^ 32) :
  ∃ self,
    Normal__init__ G os1 m sg (Some S) = Return self
    ∧ Normal__init__ G os2 m sg (Some S) = Return self
    ∧ _rng self = init_by_seed G S
    ∧ run G L os1 m sg (Some S) shapes = Return (calls L shapes self).1
    ∧ run G L os2 m sg (Some S) shapes = Return (calls L shapes self).1
    ∧ (∀ sh, Normal__call__ L sh self
               = Normal__call__ L sh (mkNormal m sg (Some S) (init_by_seed G S)))
    ∧ (∀ earlier,
         (calls L (earlier ++ shapes) self).1
           = (calls L earlier self).1
             ++ (calls L shapes (calls L earlier self).2).1)
    ∧ (∀ l s,
         float_of_number m = Return l →
         float_of_number sg = Return s →
         signed s = false →
         concat (map elements (calls L shapes self).1)
           = (draws G (requested (List.filter (fits L) shapes)) l s
                (init_by_seed G S)).1).
Proof.
  exists (mkNormal m sg (Some S) (init_by_seed G S)).
  unfold run, Normal__init__, RandomState.
  assert (((0 <=? S) && (S <? 2 ^ 32)) = true) as -> by lia.
  do 6 (split; [done|]). split.
  - intros earlier. by rewrite calls_app.
  - intros l s Hl Hs Hneg.
    by destruct (calls_stream shapes l s
                   (mkNormal m sg (Some S) (init_by_seed G S)) Hl Hs Hneg).
Qed.

(** X4: a call of a [Normal] initializer that raises leaves the
    initializer, its generator included, exactly as it was, so a refused
    request takes no draw; and what is raised is never the [IndexError] of
    [weights[0]]. *)
Theorem Normal_call_failure sh self e
    (Hraise : (Normal__call__ L sh self).1 = Raise e) :
  (Normal__call__ L sh self).2 = self
  ∧ e ≠ IndexError.
Proof.
  destruct (Normal_call_Raise sh self e Hraise) as [Hcall He].
  rewrite Hcall. split; [done|]. by destruct He as [->|[->| ->]].
Qed.

Lemma Normal_call_is_Return sh self :
  is_Return (Normal__call__ L sh self).1
    = fits L sh && negb (negative_or_unconvertible (mu self) (sigma self)).
Proof.
  destruct (Normal_call_cases sh self)
    as [(l & s & Hl & Hs & Hneg & Hv & _ & [[_ (x & -> & _)]|[_ ->]])
       |(e & -> & _ & [Hv|Hbad])]; simpl.
  - unfold negative_or_unconvertible. by rewrite Hv, Hl, Hs, Hneg.
  - unfold negative_or_unconvertible. by rewrite Hv, Hl, Hs, Hneg.
  - by rewrite Hv.
  - rewrite Hbad. by rewrite andb_false_r.
Qed.

Lemma calls_attributes (shapes : list shape) : ∀ self,
  mu (calls L shapes self).2 = mu self
  ∧ sigma (calls L shapes self).2 = sigma self
  ∧ seed (calls L shapes self).2 = seed self.
Proof.
  induction shapes as [|sh rest IH]; intros self; [done|].
  simpl. destruct (Normal_call_attributes sh self) as (H1 & H2 & H3).
  destruct (Normal__call__ L sh self) as [r self1]. simpl in *.
  destruct (IH self1) as (I1 & I2 & I3).
  destruct (calls L rest self1) as [rs self2]. simpl in *.
  repeat split; congruence.
Qed.

(** X5: whether a request is answered or refused does not depend on what
    the initializer was asked before: after any list of earlier requests a
    shape is answered exactly if it would have been answered at once. *)
Theorem Normal_answer_independent_of_history (earlier : list shape) sh self :
  is_Return (Normal__call__ L sh (calls L earlier self).2).1
    = is_Return (Normal__call__ L sh self).1.
Proof.
  rewrite !Normal_call_is_Return.
  destruct (calls_attributes earlier self) as (-> & -> & _). done.
Qed.

(** X6: what a call returns has the shape that was asked for: a scalar for
    the integer 1, and otherwise an array of the requested dimensions with
    as many elements as their product. *)
Theorem Normal_call_result sh self r
    (Hreturn : (Normal__call__ L sh self).1 = Return r) :
  (sh = Int 1 ∧ ∃ x, r = Scalar x)
  ∨ (sh ≠ Int 1
     ∧ ∃ a, r = Array a
            ∧ nd_shape a = dims sh
            ∧ Z.of_nat (length (nd_data a)) = foldr Z.mul 1 (dims sh)).
Proof.
  destruct (Normal_call_cases sh self)
    as [(l & s & _ & _ & _ & Hv & _ & [[-> (x & Hx & _)]|[Hsh Ha]])
       |(e & Hcall & _)].
  - left. split; [done|]. exists x. congruence.
  - right. split; [done|]. rewrite Ha in Hreturn. injection Hreturn as <-.
    eexists. split; [done|]. split; [done|]. simpl.
    rewrite draws_length. unfold count.
    apply Z2Nat.id, product_nonneg.
    apply fits_check_dims, check_dims_Return in Hv as (_ & _ & Hd & _).
    eapply Forall_impl; [exact Hd|]. simpl. lia.
  - rewrite Hcall in Hreturn. discriminate.
Qed.

(** X7: [mu], [sigma] and [seed] are never reassigned: after any list of
    requests, answered or refused, they are what the constructor stored. *)
Theorem Normal_attributes_kept (shapes : list shape) self :
  mu (calls L shapes self).2 = mu self
  ∧ sigma (calls L shapes self).2 = sigma self
  ∧ seed (calls L shapes self).2 = seed self.
Proof. apply calls_attributes. Qed.

(** X8: over any list of requests, for a [sigma] whose sign bit is not set,
    the numbers handed out are, in order, the next numbers of the
    initializer's stream, as many as the answered requests ask for; a
    request that is refused (a negative or oversized dimension, too many
    dimensions, no memory) takes none, and the generator ends exactly that
    many draws further. *)
Theorem Normal_refused_requests_take_nothing (shapes : list shape) self l s
    (Hmu : float_of_number (mu self) = Return l)
    (Hsigma : float_of_number (sigma self) = Return s)
    (Hneg : signed s = false) :
  concat (map elements (calls L shapes self).1)
    = (draws G (requested (List.filter (fits L) shapes)) l s (_rng self)).1
  ∧ _rng (calls L shapes self).2
      = (draws G (requested (List.filter (fits L) shapes)) l s (_rng self)).2.
Proof. by apply calls_stream. Qed.

(** X9: only the total matters.  Two lists of requests whose answered
    requests ask for the same number of weights in all get the same numbers
    in the same order and leave the generator in the same state, however
    the total is cut into requests and whatever the shapes are. *)
Theorem Normal_same_total_same_numbers (shapes1 shapes2 : list shape) self l s
    (Hmu : float_of_number (mu self) = Return l)
    (Hsigma : float_of_number (sigma self) = Return s)
    (Hneg : signed s = false)
    (Htotal : requested (List.filter (fits L) shapes1)
                = requested (List.filter (fits L) shapes2)) :
  concat (map elements (calls L shapes1 self).1)
    = concat (map elements (calls L shapes2 self).1)
  ∧ _rng (calls L shapes1 self).2 = _rng (calls L shapes2 self).2.
Proof.
  destruct (calls_stream shapes1 l s self Hmu Hsigma Hneg) as [-> ->].
  destruct (calls_stream shapes2 l s self Hmu Hsigma Hneg) as [-> ->].
  by rewrite Htotal.
Qed.



(** On the stand-in generator: the same request is answered differently the
    second time, and without a seed the answer depends on what the operating
    system supplied. *)
Example Normal_history :
  run toy.counting toy.desktop 0 (PyInt 0) (PyInt 1) (Some 42) [Int 1; Int 1]
    = Return [Return (Scalar 42%float); Return (Scalar 43%float)]
  ∧ run toy.counting toy.desktop 0 (PyInt 0) (PyInt 1) None [Int 1]
      ≠ run toy.counting toy.desktop 1 (PyInt 0) (PyInt 1) None [Int 1].
Proof. split; vm_compute; [reflexivity|discriminate]. Qed.

End normal_calls.

(** * Further properties of the optimizer life cycle *)

Section sessions.
Import base driver session.
Context {X : Type}.
Implicit Types (m : machine X) (w g : ref) (cls : pyclass X).

Lemma returned_cons m (r : outcome ref) log :
  returned ((m, r) :: log)
    = ((if is_Return r then 1 else 0) + returned log)%nat.
Proof. unfold returned. simpl. by destruct (is_Return r). Qed.

Lemma returned_app (l1 l2 : list (machine X * outcome ref)) :
  returned (l1 ++ l2) = (returned l1 + returned l2)%nat.
Proof. unfold returned. by rewrite List.filter_app, length_app. Qed.

(** The counter at the start of each call of a run, and at its end. *)
Lemma run_updates_returned cls inputs : ∀ m,
  (∀ w g, keeps_base (resolve_update_after_pred cls w g)) →
  n_iterations (self (run_updates cls inputs m).2)
    = n_iterations (self m) + Z.of_nat (returned (run_updates cls inputs m).1)
  ∧ ∀ (k : nat) mk r,
      (run_updates cls inputs m).1 !! k = Some (mk, r) →
      n_iterations (self mk)
        = n_iterations (self m)
          + Z.of_nat (returned (take k (run_updates cls inputs m).1)).
Proof.
  induction inputs as [|[w g] rest IH]; intros m Hk; simpl.
  - split; [unfold returned; simpl; lia|]. intros k mk r H.
    by rewrite lookup_nil in H.
  - pose proof (Hk w g m) as [_ Hn].
    pose proof (update_after_pred_unfold cls w g m) as Hu.
    destruct (update_after_pred cls w g m) as [r1 m1].
    destruct (IH m1 Hk) as [IH1 IH2].
    destruct (run_updates cls rest m1) as [log m2]. simpl in *.
    assert (Hm1 : n_iterations (self m1)
                  = n_iterations (self m) + (if is_Return r1 then 1 else 0)).
    { destruct (resolve_update_after_pred cls w g m) as [[w'|e] m'];
        simpl in *; injection Hu as -> ->; simpl; lia. }
    split.
    + rewrite IH1, Hm1, returned_cons. destruct (is_Return r1); lia.
    + intros [|k] mk r Hlook; simpl in *.
      * injection Hlook as <- <-. unfold returned. simpl. lia.
      * rewrite (IH2 k mk r Hlook), Hm1, returned_cons.
        destruct (is_Return r1); lia.
Qed.

(** X11: the counter counts the updates that returned.  After any run, with
    failed updates in it or not, the counter has grown by the number of
    calls that returned, the scheduler is the one the run started with, and
    [learning_rate] is the scheduler's rate for that count. *)
Theorem counter_counts_returned_calls cls (inputs : list (ref * ref)) m
    (Hkeeps : ∀ w g, keeps_base (resolve_update_after_pred cls w g)) :
  n_iterations (self (run_updates cls inputs m).2)
    = n_iterations (self m) + Z.of_nat (returned (run_updates cls inputs m).1)
  ∧ lr (self (run_updates cls inputs m).2) = lr (self m)
  ∧ (learning_rate (run_updates cls inputs m).2).1
      = call_get (lr (self m))
          (n_iterations (self m)
           + Z.of_nat (returned (run_updates cls inputs m).1)).
Proof.
  destruct (run_updates_returned cls inputs m Hkeeps) as [Hn _].
  pose proof (run_updates_lr cls inputs m Hkeeps) as Hlr.
  split; [done|]. split; [done|].
  rewrite learning_rate_unfold. simpl. by rewrite Hn, Hlr.
Qed.

(** X12: the counter never goes down.  Each call of a run starts with the
    counter at its initial value plus the number of earlier calls that
    returned, so of two calls the later one never sees a smaller count. *)
Theorem counter_never_decreases cls (inputs : list (ref * ref)) m
    (i j : nat) mi ri mj rj
    (Hkeeps : ∀ w g, keeps_base (resolve_update_after_pred cls w g))
    (Hi : (run_updates cls inputs m).1 !! i = Some (mi, ri))
    (Hj : (run_updates cls inputs m).1 !! j = Some (mj, rj))
    (Hij : (i ≤ j)%nat) :
  n_iterations (self mi)
    = n_iterations (self m)
      + Z.of_nat (returned (take i (run_updates cls inputs m).1))
  ∧ n_iterations (self mi) ≤ n_iterations (self mj).
Proof.
  destruct (run_updates_returned cls inputs m Hkeeps) as [_ Hentry].
  rewrite (Hentry i mi ri Hi), (Hentry j mj rj Hj).
  split; [done|].
  set (log := (run_updates cls inputs m).1).
  replace (take j log) with (take i log ++ take (j - i) (drop i log)).
  - rewrite returned_app. lia.
  - rewrite take_take_drop. f_equal. lia.
Qed.

(** X13: calls of [update_before_pred] and reads of [learning_rate] can be
    put anywhere in a session without any effect on it: the machine at the
    end (counter, attributes and dictionaries) is the one the
    [update_after_pred] calls alone lead to. *)
Theorem only_updates_matter cls (l : list stmt) m :
  run_stmts cls l m = (run_updates cls (updates l) m).2.
Proof.
  revert m. induction l as [|[w|w g|] l IH]; intros m; simpl.
  - done.
  - apply IH.
  - rewrite IH. destruct (update_after_pred cls w g m) as [r m1]. simpl.
    by destruct (run_updates cls (updates l) m1).
  - apply IH.
Qed.

End sessions.

(** * The further properties on concrete inputs *)

Section further_witnesses.
Import base driver sgd numpy initializers session.

Lemma Normal_reproducible_witness :
  ∃ self,
    Normal__init__ toy.counting 0 (PyInt 0) (PyInt 1) (Some 42) = Return self
    ∧ run toy.counting toy.desktop 0 (PyInt 0) (PyInt 1) (Some 42)
        [Int 1; Int 2]
      = run toy.counting toy.desktop 1 (PyInt 0) (PyInt 1) (Some 42)
          [Int 1; Int 2]
    ∧ concat (map elements (calls toy.desktop [Int 1; Int 2] self).1)
        = [42%float; 43%float; 44%float].
Proof.
  destruct (Normal_reproducible toy.counting toy.desktop (PyInt 0) (PyInt 1)
              42 0 1 [Int 1; Int 2]
              ltac:(split; [discriminate|vm_compute; reflexivity]))
    as (self & H1 & _ & _ & Hr1 & Hr2 & _ & _ & Hs).
  exists self. split; [exact H1|]. split.
  - exact (eq_trans Hr1 (eq_sym Hr2)).
  - refine (eq_trans (Hs 0%float 1%float _ _ _) _); vm_compute; reflexivity.
Defined.

Lemma Normal_call_failure_witness :
  (Normal__call__ toy.desktop (Int (-1)) seeded).2 = seeded.
Proof.
  refine (proj1 (Normal_call_failure toy.counting toy.desktop (Int (-1))
                   seeded ValueError _)).
  vm_compute. reflexivity.
Defined.

(** A [sigma] of [-0.0] and a dimension of 2 ** 63 are refused as well, and
    nothing is drawn. *)
Example Normal_refusals :
  Normal__call__ toy.desktop (Int 2)
    (mkNormal (G:=toy.counting) (PyInt 0) (PyFloat (-0)%float) (Some 42) 42)
    = (Raise ValueError,
       mkNormal (G:=toy.counting) (PyInt 0) (PyFloat (-0)%float) (Some 42) 42)
  ∧ Normal__call__ toy.desktop (Int (2 ^ 63)) seeded
      = (Raise ValueError, seeded).
Proof. split; vm_compute; reflexivity. Qed.

Lemma Normal_call_result_witness :
  (Tuple [2; 3] = Int 1 ∧ ∃ x, Array (mkArray [2; 3]
       [42%float; 43%float; 44%float; 45%float; 46%float; 47%float])
     = Scalar x)
  ∨ (Tuple [2; 3] ≠ Int 1
     ∧ ∃ a, Array (mkArray [2; 3]
                [42%float; 43%float; 44%float; 45%float; 46%float; 47%float])
              = Array a
            ∧ nd_shape a = dims (Tuple [2; 3])
            ∧ Z.of_nat (length (nd_data a)) = foldr Z.mul 1 (dims (Tuple [2; 3]))).
Proof.
  refine (Normal_call_result toy.counting toy.desktop (Tuple [2; 3]) seeded
            _ _).
  vm_compute. reflexivity.
Defined.

Lemma Normal_refused_requests_take_nothing_witness :
  concat (map elements
            (calls toy.desktop [Int 1; Int (-1); Int (2 ^ 63); Int 2]
               seeded).1)
    = [42%float; 43%float; 44%float].
Proof.
  refine (eq_trans
            (proj1 (Normal_refused_requests_take_nothing toy.counting
                      toy.desktop [Int 1; Int (-1); Int (2 ^ 63); Int 2]
                      seeded 0%float 1%float _ _ _))
            _);
    vm_compute; reflexivity.
Defined.

Lemma Normal_same_total_same_numbers_witness :
  concat (map elements (calls toy.desktop [Int 1; Int 2] seeded).1)
    = concat (map elements (calls toy.desktop [Tuple [3; 1]] seeded).1).
Proof.
  refine (proj1 (Normal_same_total_same_numbers toy.counting toy.desktop
                   [Int 1; Int 2] [Tuple [3; 1]] seeded 0%float 1%float
                   _ _ _ _));
    vm_compute; reflexivity.
Defined.


Lemma counter_counts_returned_calls_witness :
  n_iterations
    (self (run_updates SGD mixed_examples
             (mkMachine (Optimizer__init__ (Num (PyFloat tenth)) tt) store2)).2)
    = 2.
Proof.
  refine (eq_trans
            (proj1 (counter_counts_returned_calls SGD mixed_examples
                      (mkMachine (Optimizer__init__ (Num (PyFloat tenth)) tt)
                         store2)
                      SGD_keeps_base))
            _).
  vm_compute. reflexivity.
Defined.

Lemma counter_never_decreases_witness :
  ∃ mi ri mj rj,
    (run_updates SGD mixed_examples
       (mkMachine (Optimizer__init__ (Num (PyFloat tenth)) tt) store2)).1
      !! 0%nat = Some (mi, ri)
    ∧ (run_updates SGD mixed_examples
         (mkMachine (Optimizer__init__ (Num (PyFloat tenth)) tt) store2)).1
        !! 2%nat = Some (mj, rj)
    ∧ n_iterations (self mi) ≤ n_iterations (self mj).
Proof.
  eexists _, _, _, _.
  split; [vm_compute; reflexivity|]. split; [vm_compute; reflexivity|].
  refine (proj2 (counter_never_decreases SGD mixed_examples
                   (mkMachine (Optimizer__init__ (Num (PyFloat tenth)) tt)
                      store2)
                   0 2 _ _ _ _ SGD_keeps_base _ _ _)).
  - vm_compute; reflexivity.
  - vm_compute; reflexivity.
  - lia.
Defined.

End further_witnesses.
